(** * runner.py: the execution driver and its variable-watch layer

    A shallow embedding of [src/runner.py].  The driver feeds source text
    through three collaborators that live in other modules of the
    repository ([tokenize], [parse], [evaluate]); they are taken as an
    interface (class [Pipeline]) and every statement about the driver is
    proved for all of its implementations.  Printing, prompting, calls
    into the pipeline and process exit are recorded as an explicit trace
    of events. *)

From Stdlib Require Import ZArith String Ascii List.
From stdpp Require Import gmap strings list pretty.

Set Warnings "-register-all".
Open Scope string_scope.
Open Scope list_scope.

(** ** Python values *)

(** The values the driver can see: the result of an evaluation, the
    contents of an environment, and the fields of a syntax node.  A
    [dict] keeps its items in insertion order; its keys are strings, as
    for every dict this program builds or receives (syntax nodes,
    environments, objects of the scripting language).  A [float] is only
    ever printed by the driver, so it is represented by the text that
    [str()] and [repr()] both give for it. *)
Inductive pyval : Type :=
| VNone
| VBool (b : bool)
| VInt (z : Z)
| VStr (s : string)
| VList (items : list pyval)
| VDict (items : list (string * pyval))
| VFloat (text : string).

(** [sep.join(parts)]. *)
Fixpoint str_join (sep : string) (parts : list string) : string :=
  match parts with
  | [] => ""
  | [p] => p
  | p :: rest => p +:+ sep +:+ str_join sep rest
  end.

(** The line feed and the double quote, as one-character strings. *)
Definition LF : string := String "010" "".
Definition DQ : string := String "034" "".

(** [str(z)] for an [int]. *)
Definition str_int (z : Z) : string := pretty z.

(** [d.get(key)] on the items of a dict ([None] of Python is [VNone]). *)
Fixpoint dict_lookup (key : string) (items : list (string * pyval)) : option pyval :=
  match items with
  | [] => None
  | (k, v) :: rest => if String.eqb k key then Some v else dict_lookup key rest
  end.

Definition dict_get (key : string) (items : list (string * pyval)) : pyval :=
  match dict_lookup key items with
  | Some v => v
  | None => VNone
  end.

(** [val == text] for a string [text]: only a [str] compares equal to it. *)
Definition eq_str (val : pyval) (text : string) : bool :=
  match val with
  | VStr s => String.eqb s text
  | _ => false
  end.

(** [s.startswith(prefix)]. *)
Definition startswith (prefix s : string) : bool := String.prefix prefix s.


(** [s.split(sep, 1)[1]] for a one-character [sep]: what follows the
    first separator, or no such item when [s] has no separator. *)
Fixpoint split1_item1 (sep : ascii) (s : string) : option string :=
  match s with
  | EmptyString => None
  | String c rest => if Ascii.eqb c sep then Some rest else split1_item1 sep rest
  end.

(** A text is kept as the bytes of its UTF-8 encoding, so a character
    is one to four bytes.  [str.isspace] holds of these characters: the
    one-byte ones from tab to carriage return, the four separators 28 to
    31 and the space; the two-byte ones U+0085 and U+00A0; and the
    three-byte ones U+1680, U+2000 to U+200A, U+2028, U+2029, U+202F,
    U+205F and U+3000. *)
Definition isspace (c : ascii) : bool :=
  let n := nat_of_ascii c in
  (Nat.leb 9 n && Nat.leb n 13) || (Nat.leb 28 n && Nat.leb n 31) || Nat.eqb n 32.

Definition isspace2 (c1 c2 : ascii) : bool :=
  let n1 := nat_of_ascii c1 in
  let n2 := nat_of_ascii c2 in
  Nat.eqb n1 194 && (Nat.eqb n2 133 || Nat.eqb n2 160).

Definition isspace3 (c1 c2 c3 : ascii) : bool :=
  let n1 := nat_of_ascii c1 in
  let n2 := nat_of_ascii c2 in
  let n3 := nat_of_ascii c3 in
  (Nat.eqb n1 225 && Nat.eqb n2 154 && Nat.eqb n3 128)
  || (Nat.eqb n1 226 && Nat.eqb n2 128
      && ((Nat.leb 128 n3 && Nat.leb n3 138)
          || Nat.eqb n3 168 || Nat.eqb n3 169 || Nat.eqb n3 175))
  || (Nat.eqb n1 226 && Nat.eqb n2 129 && Nat.eqb n3 159)
  || (Nat.eqb n1 227 && Nat.eqb n2 128 && Nat.eqb n3 128).

(** [s.lstrip()]: the whitespace characters at the front are dropped. *)
Fixpoint lstrip (s : string) : string :=
  match s with
  | EmptyString => EmptyString
  | String c1 rest1 =>
      if isspace c1 then lstrip rest1
      else
        match rest1 with
        | String c2 rest2 =>
            if isspace2 c1 c2 then lstrip rest2
            else
              match rest2 with
              | String c3 rest3 => if isspace3 c1 c2 c3 then lstrip rest3 else s
              | EmptyString => s
              end
        | EmptyString => s
        end
  end.

(** The same from the other end, on the bytes in reverse order. *)
Fixpoint lstrip_reversed (bytes : list ascii) : list ascii :=
  match bytes with
  | [] => []
  | c3 :: rest1 =>
      if isspace c3 then lstrip_reversed rest1
      else
        match rest1 with
        | c2 :: rest2 =>
            if isspace2 c2 c3 then lstrip_reversed rest2
            else
              match rest2 with
              | c1 :: rest3 => if isspace3 c1 c2 c3 then lstrip_reversed rest3 else bytes
              | [] => bytes
              end
        | [] => bytes
        end
  end.

(** [s.rstrip()]. *)
Definition rstrip (s : string) : string :=
  string_of_list_ascii (rev (lstrip_reversed (rev (list_ascii_of_string s)))).

(** [s.strip()]. *)
Definition strip (s : string) : string := rstrip (lstrip s).

(** A text made of whitespace characters only (the empty text
    included). *)
Fixpoint all_space (s : string) : bool :=
  match s with
  | EmptyString => true
  | String c1 rest1 =>
      if isspace c1 then all_space rest1
      else
        match rest1 with
        | String c2 rest2 =>
            if isspace2 c1 c2 then all_space rest2
            else
              match rest2 with
              | String c3 rest3 => if isspace3 c1 c2 c3 then all_space rest3 else false
              | EmptyString => false
              end
        | EmptyString => false
        end
  end.

(** *** Host rendering: [repr] and [str]

    What [print(value)] writes.  [repr] of a [str] picks the single quote
    unless the text has one and no double quote, and escapes the
    backslash, the chosen quote and the control characters.  The bytes
    of a character outside ASCII are kept as they are: this is the
    rendering of the characters the host classes as printable, and the
    escapes the host writes for the others are not modelled. *)

Fixpoint contains_char (c : ascii) (s : string) : bool :=
  match s with
  | EmptyString => false
  | String d rest => Ascii.eqb c d || contains_char c rest
  end.

Definition hex_digit (n : nat) : ascii :=
  if Nat.ltb n 10 then ascii_of_nat (48 + n) else ascii_of_nat (87 + n).

Definition BACKSLASH : ascii := "092"%char.

Definition repr_char (quote c : ascii) : string :=
  let n := nat_of_ascii c in
  if Ascii.eqb c quote || Ascii.eqb c BACKSLASH then String BACKSLASH (String c "")
  else if Nat.eqb n 9 then String BACKSLASH "t"
  else if Nat.eqb n 10 then String BACKSLASH "n"
  else if Nat.eqb n 13 then String BACKSLASH "r"
  else if Nat.ltb n 32 || Nat.eqb n 127 then
    String BACKSLASH
      (String "x" (String (hex_digit (Nat.div n 16)) (String (hex_digit (Nat.modulo n 16)) "")))
  else String c "".

Fixpoint repr_chars (quote : ascii) (s : string) : string :=
  match s with
  | EmptyString => EmptyString
  | String c rest => repr_char quote c +:+ repr_chars quote rest
  end.

Definition repr_str (s : string) : string :=
  let quote : ascii :=
    if contains_char "039" s && negb (contains_char "034" s) then "034"%char else "039"%char in
  String quote (repr_chars quote s) +:+ String quote "".

Fixpoint py_repr (val : pyval) : string :=
  match val with
  | VNone => "None"
  | VBool b => if b then "True" else "False"
  | VInt z => str_int z
  | VStr s => repr_str s
  | VList items => "[" +:+ str_join ", " (map py_repr items) +:+ "]"
  | VDict items =>
      "{" +:+ str_join ", " (map (fun kv => repr_str (fst kv) +:+ ": " +:+ py_repr (snd kv)) items)
          +:+ "}"
  | VFloat text => text
  end.

Definition py_str (val : pyval) : string :=
  match val with
  | VStr s => s
  | _ => py_repr val
  end.

(** [isinstance(val, int)]: a [bool] is an [int] too, [True] being 1 and
    [False] 0. *)
Definition as_int (val : pyval) : option Z :=
  match val with
  | VInt z => Some z
  | VBool b => Some (if b then 1 else 0)%Z
  | _ => None
  end.

(** ** class WatchContext *)

Module WatchContext.

Record t : Type := Build {
  watch_var : option string;
  watch_enabled : bool;
  stack_trace : list string
}.

(** [__init__(self, watch_var=None)]. *)
Definition init (watch_var : option string) : t :=
  {| watch_var := watch_var;
     watch_enabled := bool_decide (watch_var ≠ None);
     stack_trace := [] |}.

(** [_get_location]: the innermost frame if there is one. *)
Definition _get_location (self : t) : string :=
  match last (stack_trace self) with
  | Some frame => "in function '" +:+ frame +:+ "'"
  | None => "at module level"
  end.

(** [_format_value].  The source tests [str], [bool], [list], [dict]
    and [None] in this order and falls back on [str(val)], which an
    [int] or a [float] reaches; [bool] is tested before that fallback. *)
Fixpoint _format_value (val : pyval) : string :=
  match val with
  | VStr s => DQ +:+ s +:+ DQ
  | VBool b => if b then "true" else "false"
  | VList items => "[" +:+ str_join ", " (map _format_value items) +:+ "]"
  | VDict items =>
      "{" +:+ str_join ", "
                (map (fun kv => DQ +:+ fst kv +:+ DQ +:+ ": " +:+ _format_value (snd kv)) items)
          +:+ "}"
  | VNone => "null"
  | _ => py_str val
  end.

(** [var_name == self.watch_var], the right side being a [str] or [None]. *)
Definition eq_watch_var (var_name : pyval) (watch_var : option string) : bool :=
  match watch_var with
  | Some w => eq_str var_name w
  | None => match var_name with VNone => true | _ => false end
  end.

(** [record_change]: the texts it prints, one item for each [print].
    [var_name] is whatever the caller found in the syntax node. *)
Definition record_change (self : t) (var_name : pyval) (new_value : pyval) : list string :=
  if watch_enabled self && eq_watch_var var_name (watch_var self) then
    let location := _get_location self in
    [ LF +:+ "[WATCH: " +:+ default "None" (watch_var self) +:+ "] New value: "
         +:+ _format_value new_value;
      "         Location: " +:+ location ]
    ++ (if bool_decide (stack_trace self = []) then []
        else [ "         Call stack depth: " +:+ str_int (Z.of_nat (length (stack_trace self))) ])
  else [].

End WatchContext.

(** ** The pipeline the driver calls *)

(** An exception, by its class and the text [str(e)] gives.  Only
    instances of [Exception] are modelled. *)
Record pyexc : Type := PyExc { exc_type : string; exc_str : string }.

Inductive outcome (A : Type) : Type :=
| Returned (a : A)
| Raised (e : pyexc).
Arguments Returned {A} a.
Arguments Raised {A} e.

(** ** The formatter on the host

    [WatchContext._format_value] gives the text of a value.  On the host
    the method can also fail, in two ways that are modelled here.  [str]
    of an integer of more than 4300 decimal digits raises [ValueError].
    And the interpreter stops a recursion that is too deep with
    [RecursionError]: it admits a number of further nested calls (its
    recursion limit less the depth of the stack at the call), and, as
    CPython 3.11 counts them, the method takes one of them for its own
    frame, one more for the call of [str] on a number, and two more for
    [join] and the generator it runs on a list or a dict. *)








(** An environment is a dict from variable names to values. *)
Abbreviation environment := (gmap string pyval).

(** A syntax node is a dict. *)
Abbreviation ast_node := (list (string * pyval)).

(** One call of an evaluator on a node and an environment: the lines it
    printed, the environment as its in-place updates left it, and either
    the pair [(value, status)] it returned or the exception it raised. *)
Record evaluation : Type := Evaluation {
  ev_printed : list string;
  ev_env : environment;
  ev_outcome : outcome (pyval * pyval)
}.

(** The three operations imported from the modules [tokenizer], [parser]
    and [evaluator]. *)
Class Pipeline : Type := {
  tokenize : string -> outcome pyval;
  parse : pyval -> outcome ast_node;
  evaluate : ast_node -> environment -> evaluation
}.

(** ** wrap_evaluate_for_watch *)

(** [var_name in environment]: a [list] or a [dict] cannot be hashed;
    any other value that is not a [str] is no key of an environment. *)
Definition key_in (var_name : pyval) (env : environment) : outcome (option pyval) :=
  match var_name with
  | VStr s => Returned (env !! s)
  | VList _ => Raised (PyExc "TypeError" "unhashable type: 'list'")
  | VDict _ => Raised (PyExc "TypeError" "unhashable type: 'dict'")
  | _ => Returned None
  end.

(** [isinstance(target, dict) and target.get("tag") == "identifier"]. *)
Definition is_identifier (target : pyval) : bool :=
  match target with
  | VDict items => eq_str (dict_get "tag" items) "identifier"
  | _ => false
  end.

Definition KeyError (key : string) : pyexc := PyExc "KeyError" ("'" +:+ key +:+ "'").

(** [wrapped_evaluate], the closure [wrap_evaluate_for_watch] returns. *)
Definition wrap_evaluate_for_watch
    (original_evaluate : ast_node -> environment -> evaluation)
    (watch_ctx : WatchContext.t) (ast : ast_node) (env : environment) : evaluation :=
  match dict_lookup "tag" ast with
  | None => Evaluation [] env (Raised (KeyError "tag"))
  | Some tag =>
      if eq_str tag "assign" && WatchContext.watch_enabled watch_ctx then
        match dict_lookup "target" ast with
        | None => Evaluation [] env (Raised (KeyError "target"))
        | Some target =>
            if is_identifier target then
              let var_name := match target with VDict items => dict_get "value" items | _ => VNone end in
              let r := original_evaluate ast env in
              match ev_outcome r with
              | Raised e => r
              | Returned (result, status) =>
                  match key_in var_name (ev_env r) with
                  | Raised e => Evaluation (ev_printed r) (ev_env r) (Raised e)
                  | Returned None => r
                  | Returned (Some new_value) =>
                      Evaluation
                        (ev_printed r ++ WatchContext.record_change watch_ctx var_name new_value)
                        (ev_env r) (Returned (result, status))
                  end
              end
            else original_evaluate ast env
        end
      else original_evaluate ast env
  end.

(** ** What a run of the process does *)

Inductive stage : Type := Tokenize | Parse | Evaluate.

(** The observable steps of a run, in the order they happen.  [Stdout]
    and [Stderr] carry the text handed to one [print], which adds the
    line end; [Prompt] is the prompt [input] writes; [Invoke] marks a
    call into the pipeline. *)
Inductive event : Type :=
| Stdout (text : string)
| Stderr (text : string)
| Prompt (text : string)
| Invoke (st : stage).

(** How a run ends: [sys.exit(code)] called with the integer [code];
    [main] returning; an exception nothing catches; or, for an
    interactive session whose scripted input is used up, still blocked
    in [input]. *)
Inductive termination : Type :=
| Exited (code : Z)
| Finished
| Uncaught (e : pyexc)
| AwaitingInput.

(** The status the process ends with after [sys.exit(code)]: the host
    converts the integer to a C [long] (64 bits) and the system keeps
    its low eight bits, so 256 gives 0 and -1 gives 255; an integer that
    does not fit the [long] gives 255. *)
Definition exit_status_of_code (code : Z) : Z :=
  if (- 2 ^ 63 <=? code)%Z && (code <? 2 ^ 63)%Z then (code mod 256)%Z else 255%Z.

(** The status of the process for each way a run ends; a session still
    waiting for input has none yet. *)
Definition process_status (ended : termination) : option Z :=
  match ended with
  | Exited code => Some (exit_status_of_code code)
  | Finished => Some 0%Z
  | Uncaught _ => Some 1%Z
  | AwaitingInput => None
  end.

Abbreviation run := (list event * termination)%type.

(** Events that happen before the rest of a run. *)
Definition before (events : list event) (rest : run) : run :=
  (events ++ fst rest, snd rest).

(** What [input('>> ')] can deliver: a line, an interrupt from the
    keyboard, or the end of the input. *)
Inductive input_event : Type :=
| Line (text : string)
| Interrupt
| EndOfFile.

(** The files the process can name: nothing at a path, or a file whose
    reading gives its text or fails. *)
Abbreviation filesystem := (string -> option (outcome string)).

(** ** parse_command_line_args *)

Definition EMPTY_WATCH_ERROR : string :=
  "Error: watch argument requires a variable name (watch=variable_name)".

(** The loop over [sys.argv[1:]], started with [filename] and
    [watch_var] both [None]: either the process ends there, or the pair
    [(filename, watch_var)] is returned. *)
Fixpoint parse_args_loop (args : list string) (filename watch_var : option string)
  : list event * (termination + option string * option string) :=
  match args with
  | [] => ([], inr (filename, watch_var))
  | arg :: rest =>
      if startswith "watch=" arg then
        match split1_item1 "=" arg with
        | None => ([], inl (Uncaught (PyExc "IndexError" "list index out of range")))
        | Some EmptyString =>
            ([Stdout EMPTY_WATCH_ERROR], inl (Exited 1))
        | Some name => parse_args_loop rest filename (Some name)
        end
      else if negb (startswith "-" arg) then parse_args_loop rest (Some arg) watch_var
      else parse_args_loop rest filename watch_var
  end.

Definition parse_command_line_args (sys_argv : list string)
  : list event * (termination + option string * option string) :=
  parse_args_loop (tail sys_argv) None None.

(** ** main *)

(** Truth value of an optional string: [None] and the empty string are
    false. *)
Definition truthy (o : option string) : bool :=
  match o with
  | Some (String _ _) => true
  | _ => false
  end.

(** The exit code [final_value if isinstance(final_value, int) else 0]. *)
Definition exit_code (final_value : pyval) : Z := default 0%Z (as_int final_value).

Definition is_none (val : pyval) : bool :=
  match val with VNone => true | _ => false end.

(** The block of the session that prints a result, with its guard. *)
Definition repl_display (final_value : pyval) : list event :=
  if negb (is_none final_value) then
    match final_value with
    | VBool b => [Stdout (if b then "true" else "false")]
    | VNone => [Stdout "null"]
    | _ => [Stdout (py_str final_value)]
    end
  else [].

(** A line of the session that reaches the pipeline: not blank, and not
    one of the two commands that leave the loop. *)
Definition is_statement (source_code : string) : Prop :=
  strip source_code <> "exit" /\ strip source_code <> "quit" /\ strip source_code <> "".

Section Driver.
Context {pipeline : Pipeline}.

(** The three calls [tokenize], [parse], [evaluate] on one source text,
    up to the first that raises: the events, the environment afterwards
    and the result. *)
Record pipeline_run : Type := PipelineRun {
  pl_events : list event;
  pl_env : environment;
  pl_outcome : outcome (pyval * pyval)
}.

Definition run_pipeline (source_code : string) (env : environment) : pipeline_run :=
  match tokenize source_code with
  | Raised e => PipelineRun [Invoke Tokenize] env (Raised e)
  | Returned tokens =>
      match parse tokens with
      | Raised e => PipelineRun [Invoke Tokenize; Invoke Parse] env (Raised e)
      | Returned ast =>
          let r := evaluate ast env in
          PipelineRun
            ([Invoke Tokenize; Invoke Parse; Invoke Evaluate] ++ map Stdout (ev_printed r))
            (ev_env r) (ev_outcome r)
      end
  end.

(** File execution mode, from the test [os.path.exists(filename)] on. *)
Definition file_mode (fs : filesystem) (filename : string) (env : environment) : run :=
  match fs filename with
  | None => ([Stdout ("Error: File '" +:+ filename +:+ "' not found")], Exited 1)
  | Some (Raised e) => ([Stderr ("Error: " +:+ exc_str e)], Exited 1)
  | Some (Returned source_code) =>
      let r := run_pipeline source_code env in
      match pl_outcome r with
      | Raised e => (pl_events r ++ [Stderr ("Error: " +:+ exc_str e)], Exited 1)
      | Returned (final_value, exit_status) =>
          if eq_str exit_status "exit" then (pl_events r, Exited (exit_code final_value))
          else (pl_events r, Finished)
      end
  end.

(** The [while True] loop of the session on the inputs it is given. *)
Fixpoint repl_loop (inputs : list input_event) (env : environment) : run :=
  match inputs with
  | [] => ([Prompt ">> "], AwaitingInput)
  | Interrupt :: rest => before [Prompt ">> "; Stdout LF] (repl_loop rest env)
  | EndOfFile :: rest =>
      before [Prompt ">> "; Stdout "Error: EOF when reading a line"] (repl_loop rest env)
  | Line source_code :: rest =>
      let command := strip source_code in
      if String.eqb command "exit" || String.eqb command "quit" then ([Prompt ">> "], Finished)
      else if String.eqb command "" then before [Prompt ">> "] (repl_loop rest env)
      else
        let r := run_pipeline source_code env in
        match pl_outcome r with
        | Raised e =>
            before (Prompt ">> " :: pl_events r ++ [Stdout ("Error: " +:+ exc_str e)])
                   (repl_loop rest (pl_env r))
        | Returned (final_value, exit_status) =>
            if eq_str exit_status "exit" then
              (Prompt ">> " :: pl_events r, Exited (exit_code final_value))
            else
              before (Prompt ">> " :: pl_events r ++ repl_display final_value)
                     (repl_loop rest (pl_env r))
        end
  end.

(** REPL mode, from its banner on. *)
Definition repl_mode (watch_var : option string) (inputs : list input_event)
    (env : environment) : run :=
  before ([Stdout "Language Interpreter REPL"]
          ++ (if truthy watch_var then [Stdout ("Watching: " +:+ default "None" watch_var)] else [])
          ++ [Stdout ("Type 'exit' or 'quit' to exit" +:+ LF)])
         (repl_loop inputs env).

(** [main] after the command line is parsed.  The context it builds is
    kept in the global [watch_context]; the evaluator it calls is the
    imported one. *)
Definition main_with (filename watch_var : option string) (fs : filesystem)
    (inputs : list input_event) : run :=
  let watch_context := WatchContext.init watch_var in
  before (if truthy watch_var
          then [Stdout ("[DEBUG] Watching variable: '" +:+ default "None" watch_var +:+ "'");
                Stdout ""]
          else [])
         (let env : environment := ∅ in
          if truthy filename then file_mode fs (default "" filename) env
          else repl_mode watch_var inputs env).

Definition main (sys_argv : list string) (fs : filesystem) (inputs : list input_event) : run :=
  match parse_command_line_args sys_argv with
  | (printed, inl ended) => (printed, ended)
  | (printed, inr (filename, watch_var)) => before printed (main_with filename watch_var fs inputs)
  end.

(** A script whose reading raised, or on whose text the pipeline
    raised, with the exception. *)
Definition script_failed (fs : filesystem) (script : string) (e : pyexc) : Prop :=
  fs script = Some (Raised e) \/
  exists source_code,
    fs script = Some (Returned source_code) /\
    pl_outcome (run_pipeline source_code ∅) = Raised e.

End Driver.

(** ** Reading a trace *)

Definition stdout_of (events : list event) : list string :=
  omap (fun ev => match ev with Stdout text => Some text | _ => None end) events.

Definition stderr_of (events : list event) : list string :=
  omap (fun ev => match ev with Stderr text => Some text | _ => None end) events.

Definition invocations (events : list event) : list stage :=
  omap (fun ev => match ev with Invoke st => Some st | _ => None end) events.

(** The printed texts that open a watch report. *)
Definition watch_reports (events : list event) : list string :=
  filter (fun text => startswith (LF +:+ "[WATCH: ") text = true) (stdout_of events).

(** The two lines [main] prints first when a variable is watched. *)
Definition WATCHING_HEADER (name : string) : list event :=
  [Stdout ("[DEBUG] Watching variable: '" +:+ name +:+ "'"); Stdout ""].

(** The exit code the specification words give to an exit signal: the
    final value when it is an integer of the value domain (null, boolean,
    integer or float, string, sequence, mapping), else 0. *)
Definition spec_exit_code (final_value : pyval) : Z :=
  match final_value with
  | VInt z => z
  | _ => 0%Z
  end.

(** ** A stand-in pipeline for concrete runs

    A handful of scripts with the syntax trees a parser gives them, and
    an evaluator for the statements they use: assignment to a name,
    [print], [exit], and an expression that is a literal or a name. *)

Module Fixture.

Definition number (z : Z) : pyval := VDict [("tag", VStr "number"); ("value", VInt z)].
Definition boolean (b : bool) : pyval := VDict [("tag", VStr "boolean"); ("value", VBool b)].
Definition identifier (name : string) : pyval :=
  VDict [("tag", VStr "identifier"); ("value", VStr name)].
Definition assign (target value : pyval) : ast_node :=
  [("tag", VStr "assign"); ("target", target); ("value", value)].
Definition print_ (value : pyval) : ast_node := [("tag", VStr "print"); ("value", value)].
Definition exit_ (value : pyval) : ast_node := [("tag", VStr "exit"); ("value", value)].
Definition program (statements : list ast_node) : ast_node :=
  [("tag", VStr "program"); ("statements", VList (map VDict statements))].

(** The tree of the script of three assignments to [x]. *)
Definition assign3 : ast_node :=
  program [assign (identifier "x") (number 1);
           assign (identifier "x") (number 2);
           assign (identifier "x") (number 3)].

(** Path, text and syntax tree of each script. *)
Definition scripts : list (string * (string * ast_node)) :=
  [ ("assign3.t", ("x=1; x=2; x=3", assign3));
    ("print5.t",
     ("x = 5; print x", program [assign (identifier "x") (number 5); print_ (identifier "x")]));
    ("set7.t", ("x = 7", program [assign (identifier "x") (number 7)]));
    ("x.t", ("x", program [[("tag", VStr "identifier"); ("value", VStr "x")]]));
    ("y.t", ("y", program [[("tag", VStr "identifier"); ("value", VStr "y")]]));
    ("exit_true.t", ("exit true", program [exit_ (boolean true)]));
    ("exit3.t", ("exit 3", program [exit_ (number 3)]));
    ("exit256.t", ("exit 256", program [exit_ (number 256)])) ].

Definition script_tokenize (source_code : string) : outcome pyval :=
  if contains_char "$" source_code then Raised (PyExc "Exception" "Unexpected character: $")
  else Returned (VStr source_code).

Definition script_parse (tokens : pyval) : outcome ast_node :=
  match tokens with
  | VStr source_code =>
      match list_find (fun entry => fst (snd entry) = source_code) scripts with
      | Some (_, (_, (_, ast))) => Returned ast
      | None => Raised (PyExc "Exception" "Syntax error")
      end
  | _ => Raised (PyExc "Exception" "Syntax error")
  end.

Definition eval_expression (node : pyval) (env : environment) : outcome pyval :=
  match node with
  | VDict items =>
      let tag := dict_get "tag" items in
      if eq_str tag "number" || eq_str tag "boolean" then Returned (dict_get "value" items)
      else if eq_str tag "identifier" then
        match dict_get "value" items with
        | VStr name =>
            match env !! name with
            | Some v => Returned v
            | None => Raised (PyExc "Exception" ("Unknown identifier: '" +:+ name +:+ "'"))
            end
        | _ => Raised (PyExc "Exception" "Bad identifier")
        end
      else Raised (PyExc "Exception" "Unknown expression")
  | _ => Raised (PyExc "Exception" "Unknown expression")
  end.

Definition eval_statement (ast : ast_node) (env : environment) : evaluation :=
  let tag := dict_get "tag" ast in
  if eq_str tag "assign" then
    match eval_expression (dict_get "value" ast) env, dict_get "target" ast with
    | Raised e, _ => Evaluation [] env (Raised e)
    | Returned v, VDict target =>
        match dict_get "value" target with
        | VStr name => Evaluation [] (<[name := v]> env) (Returned (v, VNone))
        | _ => Evaluation [] env (Raised (PyExc "Exception" "Bad target"))
        end
    | Returned v, _ => Evaluation [] env (Raised (PyExc "Exception" "Bad target"))
    end
  else if eq_str tag "print" then
    match eval_expression (dict_get "value" ast) env with
    | Raised e => Evaluation [] env (Raised e)
    | Returned v => Evaluation [py_str v] env (Returned (VNone, VNone))
    end
  else if eq_str tag "exit" then
    match eval_expression (dict_get "value" ast) env with
    | Raised e => Evaluation [] env (Raised e)
    | Returned v => Evaluation [] env (Returned (v, VStr "exit"))
    end
  else
    match eval_expression (VDict ast) env with
    | Raised e => Evaluation [] env (Raised e)
    | Returned v => Evaluation [] env (Returned (v, VNone))
    end.

(** The statements of a program in turn, each through [step], up to the
    first that raises or asks to exit. *)
Fixpoint eval_statements (step : ast_node -> environment -> evaluation)
    (statements : list pyval) (printed : list string) (last_value : pyval)
    (env : environment) : evaluation :=
  match statements with
  | [] => Evaluation printed env (Returned (last_value, VNone))
  | VDict statement :: rest =>
      let r := step statement env in
      match ev_outcome r with
      | Raised e => Evaluation (printed ++ ev_printed r) (ev_env r) (Raised e)
      | Returned (v, status) =>
          if eq_str status "exit"
          then Evaluation (printed ++ ev_printed r) (ev_env r) (Returned (v, status))
          else eval_statements step rest (printed ++ ev_printed r) v (ev_env r)
      end
  | _ :: _ => Evaluation printed env (Raised (PyExc "Exception" "Bad statement"))
  end.

(** An evaluator whose calls on the statements of a program go through
    [step]. *)
Definition evaluate_through (step : ast_node -> environment -> evaluation)
    (ast : ast_node) (env : environment) : evaluation :=
  if eq_str (dict_get "tag" ast) "program" then
    match dict_get "statements" ast with
    | VList statements => eval_statements step statements [] VNone env
    | _ => Evaluation [] env (Raised (PyExc "Exception" "Bad program"))
    end
  else step ast env.

(** The evaluator of the stand-in: its inner calls are its own. *)
Definition script_evaluate : ast_node -> environment -> evaluation :=
  evaluate_through eval_statement.

Definition pipeline : Pipeline :=
  {| tokenize := script_tokenize; parse := script_parse; evaluate := script_evaluate |}.

(** The files of the examples: the scripts, and nothing else. *)
Definition files : filesystem :=
  fun path =>
    match list_find (fun entry => fst entry = path) scripts with
    | Some (_, (_, (source_code, _))) => Some (Returned source_code)
    | None => None
    end.

End Fixture.

(** * Properties *)

(** ** Strings *)

Lemma startswith_app (prefix s : string) :
  startswith prefix s = true -> exists rest, s = prefix +:+ rest.
Proof.
  unfold startswith. revert s.
  induction prefix as [|a prefix IH]; intros s Hs.
  - exists s. reflexivity.
  - destruct s as [|b s]; simpl in Hs; [discriminate|].
    destruct (ascii_dec a b) as [->|]; [|discriminate].
    destruct (IH s Hs) as [rest ->]. exists rest. reflexivity.
Qed.

Lemma startswith_app_same (prefix rest : string) :
  startswith prefix (prefix +:+ rest) = true.
Proof.
  unfold startswith. induction prefix as [|a prefix IH]; simpl.
  - destruct rest; reflexivity.
  - destruct (ascii_dec a a); [exact IH | congruence].
Qed.

(** What follows [watch=] is item 1 of the split: the [IndexError] of
    [parse_command_line_args] cannot happen. *)
Lemma split_watch_argument (arg : string) :
  startswith "watch=" arg = true ->
  exists name, arg = "watch=" +:+ name /\ split1_item1 "=" arg = Some name.
Proof.
  intros H. destruct (startswith_app _ _ H) as [name ->].
  exists name. split; reflexivity.
Qed.

Lemma append_assoc (a b c : string) : (a +:+ b) +:+ c = a +:+ b +:+ c.
Proof.
  induction a as [|ch a IH]; [reflexivity|].
  change (String ch ((a +:+ b) +:+ c) = String ch (a +:+ b +:+ c)).
  rewrite IH. reflexivity.
Qed.

(** ** The canonical rendering of values *)

Example format_nested_value :
  WatchContext._format_value
    (VList [VInt 1; VInt (-20); VStr "a"; VBool true; VNone;
            VDict [("k", VInt 0); ("j", VList [])]; VFloat "1.5"])
  = "[1, -20, " +:+ DQ +:+ "a" +:+ DQ +:+ ", true, null, {"
    +:+ DQ +:+ "k" +:+ DQ +:+ ": 0, " +:+ DQ +:+ "j" +:+ DQ +:+ ": []}, 1.5]".
Proof. reflexivity. Qed.

Example host_rendering_differs :
  py_str (VList [VStr "a"; VBool true; VNone]) = "['a', True, None]" /\
  WatchContext._format_value (VList [VStr "a"; VBool true; VNone])
  = "[" +:+ DQ +:+ "a" +:+ DQ +:+ ", true, null]".
Proof. split; reflexivity. Qed.

Example strip_examples :
  strip "  exit " = "exit" /\ strip "   " = "" /\ strip "x = 1" = "x = 1".
Proof. repeat split. Qed.

(** The em space U+2003 before and the no-break space U+00A0 after are
    stripped; the zero-width space U+200B is no whitespace and stays. *)
Example strip_unicode_examples :
  strip (String "226" (String "128" (String "131" ("quit" +:+ String "194" (String "160" "")))))
  = "quit" /\
  strip (String "226" (String "128" (String "139" "quit")))
  = String "226" (String "128" (String "139" "quit")).
Proof. split; reflexivity. Qed.

(** **** Decimal notation *)








(** **** Where the formatter returns *)









(** ** The watch context *)

(** What the wrapped evaluator prints: nothing when it fails before the
    call it wraps, else what that call printed, followed by nothing or
    by the lines of one [record_change]. *)
Lemma wrapped_evaluate_printed
    (original_evaluate : ast_node -> environment -> evaluation)
    (watch_ctx : WatchContext.t) (ast : ast_node) (env : environment) :
  let w := wrap_evaluate_for_watch original_evaluate watch_ctx ast env in
  ev_printed w = [] \/
  exists extra,
    ev_printed w = ev_printed (original_evaluate ast env) ++ extra /\
    (extra = [] \/
     exists var_name new_value, extra = WatchContext.record_change watch_ctx var_name new_value).
Proof.
  cbn zeta. unfold wrap_evaluate_for_watch.
  assert (Hsame : exists extra,
             ev_printed (original_evaluate ast env)
             = ev_printed (original_evaluate ast env) ++ extra /\
             (extra = [] \/
              exists var_name new_value,
                extra = WatchContext.record_change watch_ctx var_name new_value)).
  { exists []. rewrite app_nil_r. split; [reflexivity | left; reflexivity]. }
  destruct (dict_lookup "tag" ast) as [tag|]; [|left; reflexivity].
  destruct (eq_str tag "assign" && WatchContext.watch_enabled watch_ctx); [|right; exact Hsame].
  destruct (dict_lookup "target" ast) as [target|]; [|left; reflexivity].
  destruct (is_identifier target); [|right; exact Hsame].
  destruct (ev_outcome (original_evaluate ast env)) as [[result status]|e]; [|right; exact Hsame].
  destruct (key_in _ _) as [[new_value|]|e]; right; cbn [ev_printed].
  - eexists. split; [reflexivity|]. right. eexists _, _. reflexivity.
  - exact Hsame.
  - exact Hsame.
Qed.

(** C9.  The context the driver builds has an empty call stack, and no
    function of the driver gives back a changed context.  On it the
    location is "at module level"; a report, when one is printed, is the
    value line followed by the location line "at module level" and
    nothing more; and whatever a wrapped evaluator built on it prints
    beyond the evaluator it wraps is nothing or one such report.  The
    "in function" text and the call-stack-depth line never occur. *)
Theorem watch_report_at_module_level (watch_var : option string) :
  let ctx := WatchContext.init watch_var in
  let report new_value :=
    [ LF +:+ "[WATCH: " +:+ default "None" watch_var +:+ "] New value: "
         +:+ WatchContext._format_value new_value;
      "         Location: at module level" ] in
  WatchContext.stack_trace ctx = [] /\
  WatchContext._get_location ctx = "at module level" /\
  (forall var_name new_value,
     WatchContext.record_change ctx var_name new_value = [] \/
     WatchContext.record_change ctx var_name new_value = report new_value) /\
  (forall original_evaluate ast env,
     let w := wrap_evaluate_for_watch original_evaluate ctx ast env in
     ev_printed w = [] \/
     exists extra,
       ev_printed w = ev_printed (original_evaluate ast env) ++ extra /\
       (extra = [] \/ exists new_value, extra = report new_value)).
Proof.
  cbn zeta.
  assert (Hreport : forall var_name new_value,
             WatchContext.record_change (WatchContext.init watch_var) var_name new_value = [] \/
             WatchContext.record_change (WatchContext.init watch_var) var_name new_value
             = [ LF +:+ "[WATCH: " +:+ default "None" watch_var +:+ "] New value: "
                    +:+ WatchContext._format_value new_value;
                 "         Location: at module level" ]).
  { intros var_name new_value. unfold WatchContext.record_change. cbn.
    destruct (bool_decide (watch_var <> None) && WatchContext.eq_watch_var var_name watch_var);
      [right | left]; reflexivity. }
  split; [reflexivity | split; [reflexivity | split; [exact Hreport|]]].
  intros original_evaluate ast env.
  destruct (wrapped_evaluate_printed original_evaluate (WatchContext.init watch_var) ast env)
    as [Hnone | (extra & Hprinted & [-> | (var_name & new_value & ->)])].
  - left. exact Hnone.
  - right. exists []. split; [exact Hprinted | left; reflexivity].
  - right. destruct (Hreport var_name new_value) as [Hempty | Hfull].
    + exists []. rewrite Hempty in Hprinted. split; [exact Hprinted | left; reflexivity].
    + eexists. split; [exact Hprinted|]. right. exists new_value. exact Hfull.
Qed.

(** ** The command line *)

Lemma parse_args_loop_empty_watch (args : list string) :
  "watch=" ∈ args ->
  forall filename watch_var,
    parse_args_loop args filename watch_var = ([Stdout EMPTY_WATCH_ERROR], inl (Exited 1)).
Proof.
  induction args as [|arg rest IH]; intros Hin filename watch_var.
  - apply elem_of_nil in Hin. destruct Hin.
  - cbn [parse_args_loop].
    destruct (startswith "watch=" arg) eqn:Hw.
    + destruct (split_watch_argument arg Hw) as (name & -> & ->).
      destruct name as [|c name]; [reflexivity|].
      apply IH. apply elem_of_cons in Hin as [Heq | Hin]; [discriminate Heq | exact Hin].
    + assert (Hrest : "watch=" ∈ rest).
      { apply elem_of_cons in Hin as [<- | Hin]; [discriminate Hw | exact Hin]. }
      destruct (negb (startswith "-" arg)); apply IH; exact Hrest.
Qed.

Section DriverProperties.
Context {pipeline : Pipeline}.

(** C7.  When one of the arguments after the program name is [watch=]
    with nothing after the sign, the whole run is: the configuration
    error printed, then exit with code 1.  No stage of the pipeline is
    invoked, no file is read and no input is taken. *)
Theorem empty_watch_name_exits (sys_argv : list string) (fs : filesystem)
    (inputs : list input_event) :
  "watch=" ∈ tail sys_argv ->
  main sys_argv fs inputs = ([Stdout EMPTY_WATCH_ERROR], Exited 1) /\
  invocations (fst (main sys_argv fs inputs)) = [].
Proof.
  intros Hin. unfold main, parse_command_line_args.
  rewrite (parse_args_loop_empty_watch _ Hin). split; reflexivity.
Qed.

(** ** The session *)

Lemma repl_loop_statement (source_code : string) (rest : list input_event) (env : environment) :
  is_statement source_code ->
  repl_loop (Line source_code :: rest) env
  = let r := run_pipeline source_code env in
    match pl_outcome r with
    | Raised e =>
        before (Prompt ">> " :: pl_events r ++ [Stdout ("Error: " +:+ exc_str e)])
               (repl_loop rest (pl_env r))
    | Returned (final_value, exit_status) =>
        if eq_str exit_status "exit" then
          (Prompt ">> " :: pl_events r, Exited (exit_code final_value))
        else
          before (Prompt ">> " :: pl_events r ++ repl_display final_value)
                 (repl_loop rest (pl_env r))
    end.
Proof.
  intros (Hexit & Hquit & Hblank). cbn [repl_loop].
  apply String.eqb_neq in Hexit, Hquit, Hblank.
  rewrite Hexit, Hquit, Hblank. reflexivity.
Qed.

(** C10.  In the session, a statement whose evaluation returns the null
    value without the exit signal adds nothing to the output beyond what
    the pipeline itself produced, and the loop goes on; the printing
    block is the same function as the one without its inner null
    branch, which is therefore never taken. *)
Theorem repl_prints_nothing_for_null (source_code : string) (exit_status : pyval)
    (rest : list input_event) (env : environment) :
  is_statement source_code ->
  pl_outcome (run_pipeline source_code env) = Returned (VNone, exit_status) ->
  eq_str exit_status "exit" = false ->
  repl_loop (Line source_code :: rest) env
  = before (Prompt ">> " :: pl_events (run_pipeline source_code env))
           (repl_loop rest (pl_env (run_pipeline source_code env))) /\
  repl_display VNone = [] /\
  (forall final_value,
     repl_display final_value
     = match final_value with
       | VNone => []
       | VBool b => [Stdout (if b then "true" else "false")]
       | _ => [Stdout (py_str final_value)]
       end).
Proof.
  intros Hstmt Hout Hstatus. split; [|split].
  - rewrite (repl_loop_statement _ _ _ Hstmt). cbn zeta.
    rewrite Hout, Hstatus. cbn [repl_display is_none negb].
    rewrite app_nil_r. reflexivity.
  - reflexivity.
  - intros []; reflexivity.
Qed.

(** ** File mode *)

Lemma file_mode_missing (fs : filesystem) (filename : string) (env : environment) :
  fs filename = None ->
  file_mode fs filename env
  = ([Stdout ("Error: File '" +:+ filename +:+ "' not found")], Exited 1).
Proof. intros H. unfold file_mode. rewrite H. reflexivity. Qed.

(** C6.  Run on the path [missing.t] with no file there, the process
    prints [Error: File 'missing.t' not found] and exits with code 1,
    and no stage of the pipeline is invoked; the message is printed on
    the standard output and the error stream receives nothing. *)
Theorem missing_file_message_on_stdout (inputs : list input_event) :
  let r := main ["runner.py"; "missing.t"] (fun _ => None) inputs in
  r = ([Stdout "Error: File 'missing.t' not found"], Exited 1) /\
  stdout_of (fst r) = ["Error: File 'missing.t' not found"] /\
  stderr_of (fst r) = [] /\
  invocations (fst r) = [].
Proof. cbn zeta. repeat split. Qed.

(** ** The exit signal *)

(** C8.  When the pipeline returns the exit signal, the process exits at
    once, in file mode and in the session alike, by [sys.exit] with the
    code computed from the final value: the value itself when it is an
    integer, 1 for the boolean true, and 0 for the boolean false and for
    every value that is neither.  The status the process ends with is
    that code reduced to its low eight bits when the code fits 64 bits,
    and 255 when it does not: 0 to 255 are kept, 256 gives 0 and -1
    gives 255. *)
Theorem exit_signal_exit_code (source_code : string) (env : environment) (final_value : pyval) :
  pl_outcome (run_pipeline source_code env) = Returned (final_value, VStr "exit") ->
  (forall (fs : filesystem) filename,
     fs filename = Some (Returned source_code) ->
     file_mode fs filename env
     = (pl_events (run_pipeline source_code env), Exited (exit_code final_value))) /\
  (forall rest,
     is_statement source_code ->
     repl_loop (Line source_code :: rest) env
     = (Prompt ">> " :: pl_events (run_pipeline source_code env),
        Exited (exit_code final_value))) /\
  exit_code final_value
  = match final_value with
    | VInt z => z
    | VBool true => 1%Z
    | _ => 0%Z
    end /\
  process_status (Exited (exit_code final_value))
  = Some match final_value with
         | VInt z =>
             if bool_decide (- 2 ^ 63 <= z < 2 ^ 63)%Z then (z mod 256)%Z else 255%Z
         | VBool true => 1%Z
         | _ => 0%Z
         end /\
  (exists status,
     process_status (Exited (exit_code final_value)) = Some status /\ (0 <= status < 256)%Z).
Proof.
  intros Hout. split; [|split; [|split; [|split]]].
  - intros fs filename Hfile. unfold file_mode. rewrite Hfile, Hout. reflexivity.
  - intros rest Hstmt. rewrite (repl_loop_statement _ _ _ Hstmt). cbn zeta.
    rewrite Hout. reflexivity.
  - destruct final_value as [| [] | | | | |]; reflexivity.
  - cbn [process_status]. f_equal.
    destruct final_value as [| [] |z| | | |]; try reflexivity.
    cbn [exit_code as_int default from_option id]. unfold exit_status_of_code.
    destruct (bool_decide_reflect (- 2 ^ 63 <= z < 2 ^ 63)%Z) as [Hin | Hout'].
    + rewrite (proj2 (Z.leb_le _ _) (proj1 Hin)), (proj2 (Z.ltb_lt _ _) (proj2 Hin)).
      reflexivity.
    + destruct (Z.leb_spec (- 2 ^ 63) z) as [Hlo|Hlo]; [|reflexivity].
      destruct (Z.ltb_spec z (2 ^ 63)) as [Hhi|Hhi]; [|reflexivity].
      destruct Hout'. split; assumption.
  - cbn [process_status]. eexists. split; [reflexivity|].
    unfold exit_status_of_code.
    destruct ((- 2 ^ 63 <=? exit_code final_value)%Z && (exit_code final_value <? 2 ^ 63)%Z);
      [apply Z.mod_pos_bound; reflexivity | split; [discriminate | reflexivity]].
Qed.

(** ** Watching and the output *)





(** ** Errors of the pipeline *)



(** ** The wrapped evaluator *)


End DriverProperties.

(** ** Concrete runs *)

(** The wrapper does report each assignment that is evaluated through
    it: three reports for the script, in program order. *)
Lemma wrapper_reports_each_assignment :
  ev_printed
    (Fixture.evaluate_through
       (wrap_evaluate_for_watch Fixture.eval_statement (WatchContext.init (Some "x")))
       Fixture.assign3 ∅)
  = [ LF +:+ "[WATCH: x] New value: 1"; "         Location: at module level";
      LF +:+ "[WATCH: x] New value: 2"; "         Location: at module level";
      LF +:+ "[WATCH: x] New value: 3"; "         Location: at module level" ].
Proof. vm_compute. reflexivity. Qed.

(** Wrapped around the entry point alone, it sees the program node only
    and reports nothing. *)
Lemma wrapper_at_entry_point_is_silent :
  wrap_evaluate_for_watch Fixture.script_evaluate (WatchContext.init (Some "x")) Fixture.assign3 ∅
  = Fixture.script_evaluate Fixture.assign3 ∅.
Proof. reflexivity. Qed.

(** C1.  The run of the script [x=1; x=2; x=3] with [watch=x]: the
    header, then the three stages of the pipeline, and the end of
    [main].  The evaluator binds [x] to 1, 2 and 3 in turn, and no watch
    report is printed: [main] calls the imported evaluator, never the
    wrapped one. *)
Theorem watched_script_prints_no_report :
  let r := main (pipeline := Fixture.pipeline)
             ["runner.py"; "assign3.t"; "watch=x"] Fixture.files [] in
  Fixture.files "assign3.t" = Some (Returned "x=1; x=2; x=3") /\
  ev_env (Fixture.script_evaluate Fixture.assign3 ∅) !! "x" = Some (VInt 3) /\
  r = (WATCHING_HEADER "x" ++ [Invoke Tokenize; Invoke Parse; Invoke Evaluate], Finished) /\
  watch_reports (fst r) = [].
Proof. cbn zeta. repeat split; vm_compute; reflexivity. Qed.






Lemma empty_watch_name_exits_witness :
  "watch=" ∈ tail ["runner.py"; "script.t"; "watch="] /\
  main (pipeline := Fixture.pipeline) ["runner.py"; "script.t"; "watch="] Fixture.files []
  = ([Stdout EMPTY_WATCH_ERROR], Exited 1).
Proof.
  assert (Hin : "watch=" ∈ tail ["runner.py"; "script.t"; "watch="]).
  { apply list_elem_of_further, list_elem_of_here. }
  split; [exact Hin|].
  exact (proj1 (empty_watch_name_exits (pipeline := Fixture.pipeline) _ Fixture.files [] Hin)).
Defined.

(** C8, as first stated, fails.  The script [exit true] ends with the exit
    signal and the boolean true, which is no integer of the value
    domain, and the process exits with code 1, not 0, on a script file
    and in the session.  The script [exit 256] ends with the exit signal
    and the integer 256, and the status of the process is 0, not 256. *)
Lemma exit_status_is_not_the_value :
  pl_outcome (run_pipeline (pipeline := Fixture.pipeline) "exit true" ∅)
  = Returned (VBool true, VStr "exit") /\
  snd (main (pipeline := Fixture.pipeline) ["runner.py"; "exit_true.t"] Fixture.files [])
  = Exited 1 /\
  snd (main (pipeline := Fixture.pipeline) ["runner.py"] Fixture.files [Line "exit true"])
  = Exited 1 /\
  Exited 1 <> Exited (spec_exit_code (VBool true)) /\
  pl_outcome (run_pipeline (pipeline := Fixture.pipeline) "exit 256" ∅)
  = Returned (VInt 256, VStr "exit") /\
  process_status
    (snd (main (pipeline := Fixture.pipeline) ["runner.py"; "exit256.t"] Fixture.files []))
  = Some 0%Z /\
  Some 0%Z <> Some (spec_exit_code (VInt 256)).
Proof. repeat split; try (vm_compute; reflexivity); vm_compute; discriminate. Qed.

Lemma exit_signal_exit_code_witness :
  file_mode (pipeline := Fixture.pipeline) Fixture.files "exit3.t" ∅
  = ([Invoke Tokenize; Invoke Parse; Invoke Evaluate], Exited 3).
Proof.
  refine (proj1 (exit_signal_exit_code (pipeline := Fixture.pipeline) "exit 3" ∅ (VInt 3) _)
            Fixture.files "exit3.t" _); reflexivity.
Defined.

Lemma repl_prints_nothing_for_null_witness :
  repl_loop (pipeline := Fixture.pipeline) [Line "x = 5; print x"] ∅
  = ([Prompt ">> "; Invoke Tokenize; Invoke Parse; Invoke Evaluate; Stdout "5"; Prompt ">> "],
     AwaitingInput).
Proof.
  refine (proj1 (repl_prints_nothing_for_null (pipeline := Fixture.pipeline)
                   "x = 5; print x" VNone [] ∅ _ _ _)).
  - repeat split; discriminate.
  - reflexivity.
  - reflexivity.
Defined.

(** * Further properties of the driver *)

(** ** More on the command line *)

Lemma dash_is_no_watch_argument (arg : string) :
  startswith "-" arg = true -> startswith "watch=" arg = false.
Proof.
  intros H. destruct (startswith_app _ _ H) as [rest ->]. reflexivity.
Qed.

(** What the loop over the arguments can give, from any starting pair. *)
Lemma parse_args_loop_spec (args : list string) :
  forall filename0 watch_var0,
    match parse_args_loop args filename0 watch_var0 with
    | (printed, inl ended) =>
        printed = [Stdout EMPTY_WATCH_ERROR] /\ ended = Exited 1 /\ ("watch=" ∈ args)
    | (printed, inr (filename, watch_var)) =>
        printed = [] /\ ("watch=" ∉ args) /\
        (filename = filename0 \/
         exists script, filename = Some script /\ script ∈ args /\
                        startswith "-" script = false /\ startswith "watch=" script = false) /\
        (watch_var = watch_var0 \/
         exists name, watch_var = Some name /\ name <> "" /\ "watch=" +:+ name ∈ args)
    end.
Proof.
  induction args as [|arg rest IH]; intros filename0 watch_var0.
  - cbn. split; [reflexivity | split; [apply not_elem_of_nil | split; left; reflexivity]].
  - cbn [parse_args_loop].
    destruct (startswith "watch=" arg) eqn:Hw.
    + destruct (split_watch_argument arg Hw) as (name & -> & ->).
      destruct name as [|c name].
      { split; [reflexivity | split; [reflexivity | apply list_elem_of_here]]. }
      specialize (IH filename0 (Some (String c name))).
      destruct (parse_args_loop rest filename0 (Some (String c name)))
        as [printed [ended | [filename watch_var]]].
      * destruct IH as (-> & -> & Hin).
        split; [reflexivity | split; [reflexivity | apply list_elem_of_further, Hin]].
      * destruct IH as (-> & Hnotin & Hfile & Hwatch).
        split; [reflexivity | split; [|split]].
        -- intros Hin. apply elem_of_cons in Hin as [Heq | Hin];
             [discriminate Heq | exact (Hnotin Hin)].
        -- destruct Hfile as [-> | (script & -> & Hin & Hd & Hw')]; [left; reflexivity|].
           right. exists script.
           split; [reflexivity | split; [apply list_elem_of_further, Hin | split; assumption]].
        -- right. destruct Hwatch as [-> | (name' & -> & Hne & Hin)].
           ++ exists (String c name).
              split; [reflexivity | split; [discriminate | apply list_elem_of_here]].
           ++ exists name'.
              split; [reflexivity | split; [exact Hne | apply list_elem_of_further, Hin]].
    + assert (Hnot : arg <> "watch=") by (intros ->; discriminate Hw).
      destruct (startswith "-" arg) eqn:Hd; cbn [negb].
      * specialize (IH filename0 watch_var0).
        destruct (parse_args_loop rest filename0 watch_var0)
          as [printed [ended | [filename watch_var]]].
        -- destruct IH as (-> & -> & Hin).
           split; [reflexivity | split; [reflexivity | apply list_elem_of_further, Hin]].
        -- destruct IH as (-> & Hnotin & Hfile & Hwatch).
           split; [reflexivity | split; [|split]].
           ++ intros Hin. apply elem_of_cons in Hin as [Heq | Hin];
                [exact (Hnot (eq_sym Heq)) | exact (Hnotin Hin)].
           ++ destruct Hfile as [-> | (script & -> & Hin & Hd' & Hw')]; [left; reflexivity|].
              right. exists script.
              split; [reflexivity | split; [apply list_elem_of_further, Hin | split; assumption]].
           ++ destruct Hwatch as [-> | (name & -> & Hne & Hin)]; [left; reflexivity|].
              right. exists name.
              split; [reflexivity | split; [exact Hne | apply list_elem_of_further, Hin]].
      * specialize (IH (Some arg) watch_var0).
        destruct (parse_args_loop rest (Some arg) watch_var0)
          as [printed [ended | [filename watch_var]]].
        -- destruct IH as (-> & -> & Hin).
           split; [reflexivity | split; [reflexivity | apply list_elem_of_further, Hin]].
        -- destruct IH as (-> & Hnotin & Hfile & Hwatch).
           split; [reflexivity | split; [|split]].
           ++ intros Hin. apply elem_of_cons in Hin as [Heq | Hin];
                [exact (Hnot (eq_sym Heq)) | exact (Hnotin Hin)].
           ++ right. destruct Hfile as [-> | (script & -> & Hin & Hd' & Hw')].
              ** exists arg.
                 split; [reflexivity | split; [apply list_elem_of_here | split; assumption]].
              ** exists script.
                 split; [reflexivity | split; [apply list_elem_of_further, Hin | split; assumption]].
           ++ destruct Hwatch as [-> | (name & -> & Hne & Hin)]; [left; reflexivity|].
              right. exists name.
              split; [reflexivity | split; [exact Hne | apply list_elem_of_further, Hin]].
Qed.

(** X1.  [parse_command_line_args] either ends the process or returns,
    and which one is decided by the argument [watch=] alone.  It ends
    (error line, exit code 1) exactly when [watch=] is among the
    arguments.  Otherwise it prints nothing; a returned file name is one
    of the arguments and starts neither with a dash nor with [watch=]; a
    returned watch name is not empty and is what follows [watch=] in one
    of the arguments.  The [IndexError] of the indexing [[1]] never
    occurs. *)
Theorem parse_command_line_args_spec (sys_argv : list string) :
  match parse_command_line_args sys_argv with
  | (printed, inl ended) =>
      printed = [Stdout EMPTY_WATCH_ERROR] /\ ended = Exited 1 /\ ("watch=" ∈ tail sys_argv)
  | (printed, inr (filename, watch_var)) =>
      printed = [] /\ ("watch=" ∉ tail sys_argv) /\
      (forall script, filename = Some script ->
         script ∈ tail sys_argv /\
         startswith "-" script = false /\ startswith "watch=" script = false) /\
      (forall name, watch_var = Some name ->
         name <> "" /\ "watch=" +:+ name ∈ tail sys_argv)
  end.
Proof.
  unfold parse_command_line_args.
  pose proof (parse_args_loop_spec (tail sys_argv) None None) as H.
  destruct (parse_args_loop (tail sys_argv) None None)
    as [printed [ended | [filename watch_var]]]; [exact H|].
  destruct H as (Hprinted & Hnotin & Hfile & Hwatch).
  split; [exact Hprinted | split; [exact Hnotin | split]].
  - intros script ->. destruct Hfile as [Heq | (script' & Heq & Hin & Hd & Hw)];
      [discriminate Heq|]. injection Heq as <-. repeat split; assumption.
  - intros name ->. destruct Hwatch as [Heq | (name' & Heq & Hne & Hin)];
      [discriminate Heq|]. injection Heq as <-. split; assumption.
Qed.

(** The loop on two lists of arguments in a row. *)
Lemma parse_args_loop_app (args more : list string) :
  forall filename watch_var,
    parse_args_loop (args ++ more) filename watch_var
    = match parse_args_loop args filename watch_var with
      | (printed, inl ended) => (printed, inl ended)
      | (_, inr (filename', watch_var')) => parse_args_loop more filename' watch_var'
      end.
Proof.
  induction args as [|arg rest IH]; intros filename watch_var; [reflexivity|].
  cbn [app parse_args_loop].
  destruct (startswith "watch=" arg).
  - destruct (split1_item1 "=" arg) as [[|c name]|]; [reflexivity | apply IH | reflexivity].
  - destruct (negb (startswith "-" arg)); apply IH.
Qed.

(** X2.  Later arguments override earlier ones: when no argument is the
    bare [watch=], a plain last argument [script] (no leading dash, no
    leading [watch=]) is the file name returned whatever file names came
    before it, and a last argument [watch=name] with a name that is not
    empty makes [name] the watched variable whatever was watched before
    it. *)
Theorem last_argument_wins (prog : string) (args : list string) (last : string) :
  "watch=" ∉ args ->
  (startswith "-" last = false -> startswith "watch=" last = false ->
   exists watch_var,
     parse_command_line_args (prog :: args ++ [last]) = ([], inr (Some last, watch_var))) /\
  (last <> "" ->
   exists filename,
     parse_command_line_args (prog :: args ++ ["watch=" +:+ last])
     = ([], inr (filename, Some last))).
Proof.
  intros Hnotin. unfold parse_command_line_args. cbn [tail].
  pose proof (parse_args_loop_spec args None None) as Hspec.
  split.
  - intros Hd Hw. rewrite parse_args_loop_app.
    destruct (parse_args_loop args None None) as [printed [ended | [filename watch_var]]].
    + destruct Hspec as (_ & _ & Hin). destruct (Hnotin Hin).
    + exists watch_var. cbn [parse_args_loop]. rewrite Hw, Hd. reflexivity.
  - intros Hne. rewrite parse_args_loop_app.
    destruct (parse_args_loop args None None) as [printed [ended | [filename watch_var]]].
    + destruct Hspec as (_ & _ & Hin). destruct (Hnotin Hin).
    + exists filename. cbn [parse_args_loop]. rewrite startswith_app_same.
      change (split1_item1 "=" ("watch=" +:+ last)) with (Some last).
      destruct last; [congruence | reflexivity].
Qed.

Lemma last_argument_wins_witness :
  exists watch_var,
    parse_command_line_args ["runner.py"; "a.t"; "watch=x"; "-v"; "b.t"]
    = ([], inr (Some "b.t", watch_var)).
Proof.
  refine (proj1 (last_argument_wins "runner.py" ["a.t"; "watch=x"; "-v"] "b.t" _) _ _);
    [|reflexivity|reflexivity].
  intros Hin. repeat (apply elem_of_cons in Hin as [Heq | Hin]; [discriminate Heq|]).
  exact (proj1 (elem_of_nil _) Hin).
Defined.

Lemma parse_args_loop_without_flags (args : list string) :
  forall filename watch_var,
    parse_args_loop (filter (fun arg => startswith "-" arg = false) args) filename watch_var
    = parse_args_loop args filename watch_var.
Proof.
  induction args as [|arg rest IH]; intros filename watch_var; [reflexivity|].
  destruct (startswith "-" arg) eqn:Hd.
  - rewrite filter_cons_False by (rewrite Hd; discriminate).
    cbn [parse_args_loop]. rewrite (dash_is_no_watch_argument _ Hd), Hd. apply IH.
  - rewrite filter_cons_True by exact Hd.
    cbn [parse_args_loop]. rewrite Hd.
    destruct (startswith "watch=" arg).
    + destruct (split1_item1 "=" arg) as [[|c name]|]; [reflexivity | apply IH | reflexivity].
    + apply IH.
Qed.

Section MoreDriverProperties.
Context {pipeline : Pipeline}.

(** X3.  Arguments that start with a dash have no effect at all: the run
    is the one of the command line without them. *)
Theorem flags_are_ignored (prog : string) (args : list string) (fs : filesystem)
    (inputs : list input_event) :
  main (prog :: args) fs inputs
  = main (prog :: filter (fun arg => startswith "-" arg = false) args) fs inputs.
Proof.
  unfold main, parse_command_line_args. cbn [tail].
  rewrite parse_args_loop_without_flags. reflexivity.
Qed.

End MoreDriverProperties.

(** ** More on the watch context *)

(** X4.  On the context built for [watch_var], [record_change] prints a
    report exactly when a variable is watched and [var_name] is the text
    of its name; in particular it prints nothing when no variable is
    watched, also for a [var_name] that is [None] as [watch_var] is. *)
Theorem record_change_fires_iff (watch_var : option string) (var_name new_value : pyval) :
  WatchContext.record_change (WatchContext.init watch_var) var_name new_value <> []
  <-> exists name, watch_var = Some name /\ var_name = VStr name.
Proof.
  unfold WatchContext.record_change, WatchContext.init. cbn.
  destruct watch_var as [w|]; cbn.
  - destruct var_name as [| | |s| | |]; cbn;
      try (split; [intros H; destruct (H eq_refl) | intros (name & _ & Heq); discriminate Heq]).
    destruct (String.eqb s w) eqn:Hs; cbn.
    + apply String.eqb_eq in Hs as ->. split; [|discriminate].
      intros _. exists w. split; reflexivity.
    + apply String.eqb_neq in Hs. split; [intros H; destruct (H eq_refl)|].
      intros (name & Hw & Hv). injection Hw as <-. injection Hv as ->. destruct (Hs eq_refl).
  - split; [intros H; destruct (H eq_refl) | intros (name & Heq & _); discriminate Heq].
Qed.

Lemma last_snoc_frame (frames : list string) (frame : string) :
  last (frames ++ [frame]) = Some frame.
Proof. apply last_snoc. Qed.

(** X5.  On a context whose call stack has frames, a report for the
    watched variable has three lines: the value, the location naming the
    innermost (last entered) frame, and the depth, which is the number
    of frames. *)
Theorem record_change_inside_function (name : string) (frames : list string) (frame : string)
    (new_value : pyval) :
  WatchContext.record_change
    (WatchContext.Build (Some name) true (frames ++ [frame])) (VStr name) new_value
  = [ LF +:+ "[WATCH: " +:+ name +:+ "] New value: " +:+ WatchContext._format_value new_value;
      "         Location: in function '" +:+ frame +:+ "'";
      "         Call stack depth: " +:+ str_int (Z.of_nat (S (length frames))) ].
Proof.
  unfold WatchContext.record_change, WatchContext._get_location. cbn.
  rewrite String.eqb_refl, last_snoc_frame. cbn.
  rewrite bool_decide_eq_false_2 by (destruct frames; discriminate).
  rewrite length_app. cbn [length]. rewrite Nat.add_1_r. reflexivity.
Qed.

(** ** More on the wrapped evaluator *)

(** X6.  The wrapped evaluator is the evaluator it wraps, with nothing
    added and nothing changed, on a node that has a tag in each of these
    cases: watching is disabled; the node is no assignment; the node has
    a target and that target is no identifier node, or the evaluation
    raises, or the assigned name is not the watched one. *)
Theorem wrapper_is_transparent
    (original_evaluate : ast_node -> environment -> evaluation)
    (watch_ctx : WatchContext.t) (ast : ast_node) (env : environment) (tag : pyval) :
  dict_lookup "tag" ast = Some tag ->
  WatchContext.watch_enabled watch_ctx = false \/
  eq_str tag "assign" = false \/
  (exists target,
     dict_lookup "target" ast = Some target /\
     (is_identifier target = false \/
      (exists e, ev_outcome (original_evaluate ast env) = Raised e) \/
      (exists items name watched,
         target = VDict items /\ dict_get "value" items = VStr name /\
         WatchContext.watch_var watch_ctx = Some watched /\ name <> watched))) ->
  wrap_evaluate_for_watch original_evaluate watch_ctx ast env = original_evaluate ast env.
Proof.
  intros Htag Hcase. unfold wrap_evaluate_for_watch. rewrite Htag.
  destruct (eq_str tag "assign") eqn:Hassign; [|reflexivity].
  destruct (WatchContext.watch_enabled watch_ctx) eqn:Henabled; [|reflexivity].
  cbn [andb].
  destruct Hcase as [H | [H | (target & Htarget & Hcase)]]; try discriminate H.
  rewrite Htarget.
  destruct (is_identifier target) eqn:Hident; [|reflexivity].
  destruct Hcase as [H | [(e & He) | (items & name & watched & -> & Hname & Hw & Hne)]];
    try discriminate H.
  - rewrite He. reflexivity.
  - rewrite Hname. cbn [key_in].
    destruct (original_evaluate ast env) as [printed env' [[result status]|e]];
      cbn [ev_outcome ev_env ev_printed]; [|reflexivity].
    destruct (env' !! name) as [new_value|]; [|reflexivity].
    unfold WatchContext.record_change, WatchContext.eq_watch_var. rewrite Hw. cbn [eq_str].
    apply String.eqb_neq in Hne. rewrite Hne, andb_false_r, app_nil_r. reflexivity.
Qed.

Lemma wrapper_is_transparent_witness :
  wrap_evaluate_for_watch Fixture.eval_statement (WatchContext.init (Some "y"))
    (Fixture.assign (Fixture.identifier "x") (Fixture.number 1)) ∅
  = Fixture.eval_statement (Fixture.assign (Fixture.identifier "x") (Fixture.number 1)) ∅.
Proof.
  refine (wrapper_is_transparent Fixture.eval_statement (WatchContext.init (Some "y"))
            (Fixture.assign (Fixture.identifier "x") (Fixture.number 1)) ∅
            (VStr "assign") _ _); [reflexivity|].
  do 2 right. exists (Fixture.identifier "x"). split; [reflexivity|].
  do 2 right. exists [("tag", VStr "identifier"); ("value", VStr "x")], "x", "y".
  repeat split. discriminate.
Defined.

(** X8.  Whenever the wrapped evaluator returns a pair, the evaluator it
    wraps returned that very pair on the same node, the environment is
    the one that call left, and what that call printed comes first: the
    wrapper never turns an exception into a result and never changes a
    result or the environment. *)
Theorem wrapper_returns_what_was_returned
    (original_evaluate : ast_node -> environment -> evaluation)
    (watch_ctx : WatchContext.t) (ast : ast_node) (env : environment) (pair : pyval * pyval) :
  ev_outcome (wrap_evaluate_for_watch original_evaluate watch_ctx ast env) = Returned pair ->
  ev_outcome (original_evaluate ast env) = Returned pair /\
  ev_env (wrap_evaluate_for_watch original_evaluate watch_ctx ast env)
  = ev_env (original_evaluate ast env) /\
  exists extra,
    ev_printed (wrap_evaluate_for_watch original_evaluate watch_ctx ast env)
    = ev_printed (original_evaluate ast env) ++ extra.
Proof.
  unfold wrap_evaluate_for_watch.
  assert (Hsame : ev_outcome (original_evaluate ast env) = Returned pair ->
                  ev_outcome (original_evaluate ast env) = Returned pair /\
                  ev_env (original_evaluate ast env) = ev_env (original_evaluate ast env) /\
                  exists extra,
                    ev_printed (original_evaluate ast env)
                    = ev_printed (original_evaluate ast env) ++ extra).
  { intros H. split; [exact H | split; [reflexivity|]]. exists []. rewrite app_nil_r. reflexivity. }
  destruct (dict_lookup "tag" ast) as [tag|]; [|discriminate].
  destruct (eq_str tag "assign" && WatchContext.watch_enabled watch_ctx); [|exact Hsame].
  destruct (dict_lookup "target" ast) as [target|]; [|discriminate].
  destruct (is_identifier target); [|exact Hsame].
  destruct (ev_outcome (original_evaluate ast env)) as [[result status]|e] eqn:Hout;
    [|rewrite Hout; discriminate].
  destruct (key_in _ _) as [[new_value|]|e]; cbn [ev_outcome ev_env ev_printed].
  - intros H. split; [exact H | split; [reflexivity|]]. eexists. reflexivity.
  - rewrite Hout. intros H. split; [exact H | split; [reflexivity|]].
    exists []. rewrite app_nil_r. reflexivity.
  - discriminate.
Qed.

Lemma wrapper_returns_what_was_returned_witness :
  ev_outcome (Fixture.eval_statement
                (Fixture.assign (Fixture.identifier "x") (Fixture.number 1)) ∅)
  = Returned (VInt 1, VNone).
Proof.
  refine (proj1 (wrapper_returns_what_was_returned Fixture.eval_statement
                   (WatchContext.init (Some "x"))
                   (Fixture.assign (Fixture.identifier "x") (Fixture.number 1)) ∅
                   (VInt 1, VNone) _)).
  reflexivity.
Defined.

(** ** More on the session *)

Ltac bools_to_props :=
  repeat rewrite ?andb_true_iff, ?orb_true_iff, ?Nat.eqb_eq, ?Nat.leb_le in *.

Ltac prove_not_space :=
  apply not_true_iff_false; intros ?; bools_to_props; lia.

Lemma isspace2_true (c1 c2 : ascii) :
  isspace2 c1 c2 = true -> isspace c1 = false /\ isspace c2 = false.
Proof.
  unfold isspace2, isspace. cbv zeta.
  generalize (nat_of_ascii c1) (nat_of_ascii c2). intros n1 n2 H.
  bools_to_props. split; prove_not_space.
Qed.

Lemma isspace3_true (c1 c2 c3 : ascii) :
  isspace3 c1 c2 c3 = true ->
  isspace c1 = false /\ isspace2 c1 c2 = false /\
  isspace c3 = false /\ isspace2 c2 c3 = false.
Proof.
  unfold isspace3, isspace2, isspace. cbv zeta.
  generalize (nat_of_ascii c1) (nat_of_ascii c2) (nat_of_ascii c3). intros n1 n2 n3 H.
  bools_to_props. repeat split; prove_not_space.
Qed.

Lemma lstrip_space1 (c1 : ascii) (rest : string) :
  isspace c1 = true -> lstrip (String c1 rest) = lstrip rest.
Proof. intros H. cbn [lstrip]. rewrite H. reflexivity. Qed.

Lemma lstrip_space2 (c1 c2 : ascii) (rest : string) :
  isspace2 c1 c2 = true -> lstrip (String c1 (String c2 rest)) = lstrip rest.
Proof.
  intros H. destruct (isspace2_true _ _ H) as [H1 _].
  cbn [lstrip]. rewrite H1, H. reflexivity.
Qed.

Lemma lstrip_space3 (c1 c2 c3 : ascii) (rest : string) :
  isspace3 c1 c2 c3 = true ->
  lstrip (String c1 (String c2 (String c3 rest))) = lstrip rest.
Proof.
  intros H. destruct (isspace3_true _ _ _ H) as (H1 & H2 & _).
  cbn [lstrip]. rewrite H1, H2, H. reflexivity.
Qed.

Lemma lstrip_reversed_space1 (c3 : ascii) (rest : list ascii) :
  isspace c3 = true -> lstrip_reversed (c3 :: rest) = lstrip_reversed rest.
Proof. intros H. cbn [lstrip_reversed]. rewrite H. reflexivity. Qed.

Lemma lstrip_reversed_space2 (c1 c2 : ascii) (rest : list ascii) :
  isspace2 c1 c2 = true -> lstrip_reversed (c2 :: c1 :: rest) = lstrip_reversed rest.
Proof.
  intros H. destruct (isspace2_true _ _ H) as [_ H2].
  cbn [lstrip_reversed]. rewrite H2, H. reflexivity.
Qed.

Lemma lstrip_reversed_space3 (c1 c2 c3 : ascii) (rest : list ascii) :
  isspace3 c1 c2 c3 = true ->
  lstrip_reversed (c3 :: c2 :: c1 :: rest) = lstrip_reversed rest.
Proof.
  intros H. destruct (isspace3_true _ _ _ H) as (_ & _ & H3 & H4).
  cbn [lstrip_reversed]. rewrite H3, H4, H. reflexivity.
Qed.

(** The cases of a text made of whitespace only: it is empty, or it
    starts with a whitespace character of one, two or three bytes. *)
Lemma all_space_cases (s : string) :
  all_space s = true ->
  s = "" \/
  (exists c1 rest, s = String c1 rest /\ isspace c1 = true /\ all_space rest = true) \/
  (exists c1 c2 rest,
     s = String c1 (String c2 rest) /\ isspace2 c1 c2 = true /\ all_space rest = true) \/
  (exists c1 c2 c3 rest,
     s = String c1 (String c2 (String c3 rest)) /\
     isspace3 c1 c2 c3 = true /\ all_space rest = true).
Proof.
  destruct s as [|c1 rest1]; [left; reflexivity|]. cbn [all_space].
  destruct (isspace c1) eqn:H1.
  { intros H. right. left. exists c1, rest1. repeat split; assumption. }
  destruct rest1 as [|c2 rest2]; [intros H; discriminate H|].
  destruct (isspace2 c1 c2) eqn:H2.
  { intros H. right. right. left. exists c1, c2, rest2. repeat split; assumption. }
  destruct rest2 as [|c3 rest3]; [intros H; discriminate H|].
  destruct (isspace3 c1 c2 c3) eqn:H3; [|intros H; discriminate H].
  intros H. right. right. right. exists c1, c2, c3, rest3. repeat split; assumption.
Qed.

Lemma append_cons (c : ascii) (a b : string) : String c a +:+ b = String c (a +:+ b).
Proof. reflexivity. Qed.

Lemma list_ascii_of_string_app (a b : string) :
  list_ascii_of_string (a +:+ b) = list_ascii_of_string a ++ list_ascii_of_string b.
Proof.
  induction a as [|c a IH]; [reflexivity|].
  rewrite append_cons. cbn [list_ascii_of_string app]. rewrite IH. reflexivity.
Qed.

Lemma lstrip_app_space_bounded (n : nat) :
  forall spaces s,
    String.length spaces <= n -> all_space spaces = true ->
    lstrip (spaces +:+ s) = lstrip s.
Proof.
  induction n as [|n IH]; intros spaces s Hlen Hall.
  - destruct spaces; [reflexivity | cbn in Hlen; lia].
  - destruct (all_space_cases spaces Hall)
      as [-> | [(c1 & rest & -> & H & Hrest)
             | [(c1 & c2 & rest & -> & H & Hrest)
               | (c1 & c2 & c3 & rest & -> & H & Hrest)]]];
      cbn [String.length] in Hlen; rewrite ?append_cons.
    + reflexivity.
    + rewrite (lstrip_space1 _ _ H). apply IH; [lia | exact Hrest].
    + rewrite (lstrip_space2 _ _ _ H). apply IH; [lia | exact Hrest].
    + rewrite (lstrip_space3 _ _ _ _ H). apply IH; [lia | exact Hrest].
Qed.

Lemma lstrip_app_space (spaces s : string) :
  all_space spaces = true -> lstrip (spaces +:+ s) = lstrip s.
Proof. apply (lstrip_app_space_bounded (String.length spaces)). lia. Qed.

Lemma lstrip_reversed_space_bounded (n : nat) :
  forall spaces bytes,
    String.length spaces <= n -> all_space spaces = true ->
    lstrip_reversed (rev (list_ascii_of_string spaces) ++ bytes) = lstrip_reversed bytes.
Proof.
  induction n as [|n IH]; intros spaces bytes Hlen Hall.
  - destruct spaces; [reflexivity | cbn in Hlen; lia].
  - destruct (all_space_cases spaces Hall)
      as [-> | [(c1 & rest & -> & H & Hrest)
             | [(c1 & c2 & rest & -> & H & Hrest)
               | (c1 & c2 & c3 & rest & -> & H & Hrest)]]];
      cbn [String.length] in Hlen; cbn [list_ascii_of_string rev].
    + reflexivity.
    + rewrite <- app_assoc. cbn [app].
      rewrite IH by (lia || exact Hrest). apply lstrip_reversed_space1, H.
    + rewrite <- !app_assoc. cbn [app].
      rewrite IH by (lia || exact Hrest). apply lstrip_reversed_space2, H.
    + rewrite <- !app_assoc. cbn [app].
      rewrite IH by (lia || exact Hrest). apply lstrip_reversed_space3, H.
Qed.

Lemma rstrip_app_space (s spaces : string) :
  all_space spaces = true -> rstrip (s +:+ spaces) = rstrip s.
Proof.
  intros H. unfold rstrip.
  rewrite list_ascii_of_string_app, rev_app_distr.
  rewrite (lstrip_reversed_space_bounded (String.length spaces)) by (lia || exact H).
  reflexivity.
Qed.

Lemma strip_all_space (s : string) : all_space s = true -> strip s = "".
Proof.
  intros H. unfold strip.
  assert (Hl : lstrip s = "").
  { pose proof (lstrip_app_space_bounded (String.length s) s "" (Nat.le_refl _) H) as Hs.
    assert (Hnil : forall t, t +:+ "" = t).
    { induction t as [|c t IHt]; [reflexivity | rewrite append_cons, IHt; reflexivity]. }
    rewrite Hnil in Hs. exact Hs. }
  rewrite Hl. reflexivity.
Qed.

Lemma stderr_of_app (events more : list event) :
  stderr_of (events ++ more) = stderr_of events ++ stderr_of more.
Proof. apply omap_app. Qed.

Lemma stderr_of_printed (printed : list string) : stderr_of (map Stdout printed) = [].
Proof. induction printed as [|text printed IH]; [reflexivity | exact IH]. Qed.

Lemma stderr_of_repl_display (final_value : pyval) : stderr_of (repl_display final_value) = [].
Proof. destruct final_value as [|[]| | | | |]; reflexivity. Qed.

Section SessionProperties.
Context {pipeline : Pipeline}.

Lemma stderr_of_pipeline (source_code : string) (env : environment) :
  stderr_of (pl_events (run_pipeline source_code env)) = [].
Proof.
  unfold run_pipeline.
  destruct (tokenize source_code) as [tokens|e]; [|reflexivity].
  destruct (parse tokens) as [ast|e]; [|reflexivity].
  cbn [pl_events]. rewrite stderr_of_app, stderr_of_printed. reflexivity.
Qed.

(** X9.  Lines made of whitespace only (empty lines included) are
    skipped by the session: each one costs a prompt and nothing else, no
    stage of the pipeline is invoked, nothing is printed, and the
    session goes on with the environment unchanged. *)
Theorem repl_skips_blank_lines (lines : list string) (rest : list input_event)
    (env : environment) :
  Forall (fun line => all_space line = true) lines ->
  repl_loop (map Line lines ++ rest) env
  = before (replicate (length lines) (Prompt ">> ")) (repl_loop rest env).
Proof.
  induction 1 as [|line lines Hline _ IH]; cbn [map app length replicate].
  - unfold before. cbn. destruct (repl_loop rest env). reflexivity.
  - cbn [repl_loop]. rewrite (strip_all_space line Hline). cbn [String.eqb orb].
    rewrite IH. unfold before. reflexivity.
Qed.

(** X10.  The words [exit] and [quit], with any whitespace around them,
    end the session at once: the loop is left after the prompt, [main]
    returns, the pipeline is not invoked for that line and the inputs
    after it are never read. *)
Theorem repl_leaves_on_exit_or_quit (before_word word after_word : string)
    (rest : list input_event) (env : environment) :
  word = "exit" \/ word = "quit" ->
  all_space before_word = true -> all_space after_word = true ->
  repl_loop (Line (before_word +:+ word +:+ after_word) :: rest) env
  = ([Prompt ">> "], Finished).
Proof.
  intros Hword Hbefore Hafter.
  assert (Hstrip : strip (before_word +:+ word +:+ after_word) = word).
  { unfold strip. rewrite (lstrip_app_space _ _ Hbefore).
    destruct Hword as [-> | ->].
    - change (lstrip ("exit" +:+ after_word)) with ("exit" +:+ after_word).
      rewrite (rstrip_app_space _ _ Hafter). reflexivity.
    - change (lstrip ("quit" +:+ after_word)) with ("quit" +:+ after_word).
      rewrite (rstrip_app_space _ _ Hafter). reflexivity. }
  cbn [repl_loop]. rewrite Hstrip. destruct Hword as [-> | ->]; reflexivity.
Qed.

End SessionProperties.

(** The ideographic space U+3000 followed by the no-break space U+00A0,
    and the em space U+2003, in UTF-8. *)
Lemma repl_skips_blank_lines_witness :
  repl_loop (pipeline := Fixture.pipeline)
    [Line ""; Line "   ";
     Line (String "227" (String "128" (String "128" (String "194" (String "160" "")))));
     Line "x = 7"] ∅
  = ([Prompt ">> "; Prompt ">> "; Prompt ">> "; Prompt ">> "; Invoke Tokenize; Invoke Parse;
      Invoke Evaluate; Stdout "7"; Prompt ">> "], AwaitingInput).
Proof.
  refine (repl_skips_blank_lines (pipeline := Fixture.pipeline)
            [""; "   ";
             String "227" (String "128" (String "128" (String "194" (String "160" ""))))]
            [Line "x = 7"] ∅ _).
  repeat constructor.
Defined.

Lemma repl_leaves_on_exit_or_quit_witness :
  repl_loop (pipeline := Fixture.pipeline)
    [Line (String "226" (String "128" (String "131" ("quit" +:+ String "194" (String "160" "")))));
     Line "x = 7"] ∅
  = ([Prompt ">> "], Finished).
Proof.
  refine (repl_leaves_on_exit_or_quit (pipeline := Fixture.pipeline)
            (String "226" (String "128" (String "131" ""))) "quit" (String "194" (String "160" ""))
            [Line "x = 7"] ∅ _ _ _);
    [right; reflexivity | reflexivity | reflexivity].
Defined.

(** ** What [main] never does *)


Section RunProperties.
Context {pipeline : Pipeline}.

Lemma repl_loop_invariant (inputs : list input_event) :
  forall env,
    stderr_of (fst (repl_loop inputs env)) = [] /\
    forall e, snd (repl_loop inputs env) <> Uncaught e.
Proof.
  induction inputs as [|input rest IH]; intros env.
  - split; [reflexivity | discriminate].
  - destruct input as [source_code| |]; cbn [repl_loop].
    + destruct (String.eqb (strip source_code) "exit" || String.eqb (strip source_code) "quit").
      { split; [reflexivity | discriminate]. }
      destruct (String.eqb (strip source_code) "").
      { exact (IH env). }
      cbn zeta.
      destruct (pl_outcome (run_pipeline source_code env)) as [[final_value exit_status]|e].
      * destruct (eq_str exit_status "exit").
        -- split; [|discriminate]. cbn [fst]. exact (stderr_of_pipeline source_code env).
        -- destruct (IH (pl_env (run_pipeline source_code env))) as [Herr Hend].
           split; [|exact Hend]. cbn [before fst].
           change (Prompt ">> " :: ?l) with ([Prompt ">> "] ++ l).
           rewrite !stderr_of_app, stderr_of_pipeline, stderr_of_repl_display, Herr.
           reflexivity.
      * destruct (IH (pl_env (run_pipeline source_code env))) as [Herr Hend].
        split; [|exact Hend]. cbn [before fst].
        change (Prompt ">> " :: ?l) with ([Prompt ">> "] ++ l).
        rewrite !stderr_of_app, stderr_of_pipeline, Herr. reflexivity.
    + destruct (IH env) as [Herr Hend]. split; [exact Herr | exact Hend].
    + destruct (IH env) as [Herr Hend]. split; [exact Herr | exact Hend].
Qed.

Lemma main_with_invariant (filename watch_var : option string) (fs : filesystem)
    (inputs : list input_event) :
  (stderr_of (fst (main_with filename watch_var fs inputs)) = [] \/
   exists script e,
     filename = Some script /\ script <> "" /\ script_failed fs script e /\
     stderr_of (fst (main_with filename watch_var fs inputs)) = ["Error: " +:+ exc_str e] /\
     snd (main_with filename watch_var fs inputs) = Exited 1) /\
  forall e, snd (main_with filename watch_var fs inputs) <> Uncaught e.
Proof.
  unfold main_with. cbn [before fst snd].
  rewrite stderr_of_app.
  assert (Hheader : stderr_of
            (if truthy watch_var
             then [Stdout ("[DEBUG] Watching variable: '" +:+ default "None" watch_var +:+ "'");
                   Stdout ""]
             else []) = []) by (destruct (truthy watch_var); reflexivity).
  rewrite Hheader. cbn [app].
  destruct filename as [[|c script]|]; cbn [truthy default from_option id].
  - unfold repl_mode. cbn [before fst snd].
    destruct (repl_loop_invariant inputs ∅) as [Herr Hend].
    split; [left | exact Hend].
    rewrite !stderr_of_app, Herr. destruct (truthy watch_var); reflexivity.
  - unfold file_mode.
    destruct (fs (String c script)) as [[source_code|e]|] eqn:Hfile.
    + destruct (pl_outcome (run_pipeline source_code ∅)) as [[final_value exit_status]|e]
        eqn:Hout.
      * destruct (eq_str exit_status "exit"); cbn [fst snd];
          (split; [left; apply stderr_of_pipeline | discriminate]).
      * split; [right | discriminate]. exists (String c script), e.
        cbn [fst snd]. rewrite stderr_of_app, stderr_of_pipeline.
        split; [reflexivity | split; [discriminate | split; [|split; reflexivity]]].
        right. exists source_code. split; [exact Hfile | exact Hout].
    + split; [right | discriminate]. exists (String c script), e.
      split; [reflexivity | split; [discriminate | split; [|split; reflexivity]]].
      left. exact Hfile.
    + split; [left; reflexivity | discriminate].
  - unfold repl_mode. cbn [before fst snd].
    destruct (repl_loop_invariant inputs ∅) as [Herr Hend].
    split; [left | exact Hend].
    rewrite !stderr_of_app, Herr. destruct (truthy watch_var); reflexivity.
Qed.


(** X11.  Whatever the command line, the files and the typed input are,
    and whatever the pipeline returns or raises, no exception escapes
    from [main]: the process ends by an exit call or by the return of
    [main], or the session is still waiting for input. *)
Theorem main_never_ends_uncaught (sys_argv : list string) (fs : filesystem)
    (inputs : list input_event) (e : pyexc) :
  snd (main sys_argv fs inputs) <> Uncaught e.
Proof.
  unfold main, parse_command_line_args.
  pose proof (parse_args_loop_spec (tail sys_argv) None None) as Hspec.
  destruct (parse_args_loop (tail sys_argv) None None)
    as [printed [ended | [filename watch_var]]].
  - destruct Hspec as (_ & -> & _). discriminate.
  - cbn [before snd]. apply main_with_invariant.
Qed.


End RunProperties.

(** ** More on the session and on file mode *)

Lemma stdout_of_app (events more : list event) :
  stdout_of (events ++ more) = stdout_of events ++ stdout_of more.
Proof. apply omap_app. Qed.

Lemma stdout_of_printed (printed : list string) : stdout_of (map Stdout printed) = printed.
Proof.
  induction printed as [|text printed IH]; [reflexivity|].
  cbn. f_equal. exact IH.
Qed.

Lemma invocations_app (events more : list event) :
  invocations (events ++ more) = invocations events ++ invocations more.
Proof. apply omap_app. Qed.

Lemma invocations_printed (printed : list string) : invocations (map Stdout printed) = [].
Proof. induction printed as [|text printed IH]; [reflexivity | exact IH]. Qed.

Section ModeProperties.
Context {pipeline : Pipeline}.

(** X13.  An interrupt from the keyboard and the end of the input never
    end the session and never reach the pipeline: the first prints an
    empty line, the second the line [Error: EOF when reading a line],
    and the loop prompts again with the environment unchanged.  So once
    the input is at its end, every further read repeats that error. *)
Theorem repl_survives_interrupt_and_eof (signals rest : list input_event) (env : environment) :
  Forall (fun input => input = Interrupt \/ input = EndOfFile) signals ->
  repl_loop (signals ++ rest) env
  = before
      (flat_map
         (fun input =>
            [Prompt ">> ";
             Stdout (match input with
                     | Interrupt => LF
                     | _ => "Error: EOF when reading a line"
                     end)])
         signals)
      (repl_loop rest env).
Proof.
  induction 1 as [|input signals Hinput _ IH]; cbn [app flat_map].
  - unfold before. cbn. destruct (repl_loop rest env). reflexivity.
  - destruct Hinput as [-> | ->]; cbn [repl_loop]; rewrite IH; reflexivity.
Qed.

(** X14.  In file mode, on a script that can be read, the driver adds
    nothing to the standard output: its lines are those the evaluator
    printed, and none when tokenizing or parsing raised; the final value
    is never displayed.  The stages are invoked at most once each, in
    the order tokenize, parse, evaluate, and [main] returns normally
    exactly when the evaluation returned without the exit signal. *)
Theorem file_mode_output (fs : filesystem) (filename source_code : string) (env : environment) :
  fs filename = Some (Returned source_code) ->
  let out := file_mode fs filename env in
  stdout_of (fst out)
  = match tokenize source_code with
    | Returned tokens =>
        match parse tokens with
        | Returned ast => ev_printed (evaluate ast env)
        | Raised _ => []
        end
    | Raised _ => []
    end /\
  invocations (fst out) `prefix_of` [Tokenize; Parse; Evaluate] /\
  (snd out = Finished <->
   exists final_value exit_status,
     pl_outcome (run_pipeline source_code env) = Returned (final_value, exit_status) /\
     eq_str exit_status "exit" = false).
Proof.
  intros Hfile. cbn zeta. unfold file_mode. rewrite Hfile.
  assert (Hout : stdout_of (pl_events (run_pipeline source_code env))
                 = match tokenize source_code with
                   | Returned tokens =>
                       match parse tokens with
                       | Returned ast => ev_printed (evaluate ast env)
                       | Raised _ => []
                       end
                   | Raised _ => []
                   end).
  { unfold run_pipeline. destruct (tokenize source_code) as [tokens|e]; [|reflexivity].
    destruct (parse tokens) as [ast|e]; [|reflexivity].
    cbn [pl_events]. rewrite stdout_of_app, stdout_of_printed. reflexivity. }
  assert (Hinv : invocations (pl_events (run_pipeline source_code env))
                 `prefix_of` [Tokenize; Parse; Evaluate]).
  { unfold run_pipeline. destruct (tokenize source_code) as [tokens|e].
    - destruct (parse tokens) as [ast|e].
      + cbn [pl_events]. rewrite invocations_app, invocations_printed. exists []. reflexivity.
      + exists [Evaluate]. reflexivity.
    - exists [Parse; Evaluate]. reflexivity. }
  destruct (pl_outcome (run_pipeline source_code env)) as [[final_value exit_status]|e].
  - destruct (eq_str exit_status "exit") eqn:Hexit; cbn [fst snd].
    + split; [exact Hout | split; [exact Hinv|]].
      split; [discriminate|]. intros (v & st & Heq & Hst).
      injection Heq as <- <-. congruence.
    + split; [exact Hout | split; [exact Hinv|]].
      split; [|reflexivity]. intros _. exists final_value, exit_status. split; [reflexivity | exact Hexit].
  - cbn [fst snd]. rewrite stdout_of_app, invocations_app, !app_nil_r.
    split; [exact Hout | split; [exact Hinv|]].
    split; [discriminate | intros (v & st & Heq & _); discriminate Heq].
Qed.

(** X16.  An empty text as last plain argument selects the interactive
    session, even after the name of a script: the empty file name counts
    as no file name.  With no input typed yet the process sits at the
    prompt, no file having been read and no stage invoked. *)
Theorem empty_file_name_starts_session (prog : string) (args : list string) (fs : filesystem) :
  "watch=" ∉ args ->
  snd (main (prog :: args ++ [""]) fs []) = AwaitingInput /\
  invocations (fst (main (prog :: args ++ [""]) fs [])) = [].
Proof.
  intros Hnotin. unfold main, parse_command_line_args. cbn [tail].
  rewrite parse_args_loop_app.
  pose proof (parse_args_loop_spec args None None) as Hspec.
  destruct (parse_args_loop args None None) as [printed [ended | [filename watch_var]]].
  - destruct Hspec as (_ & _ & Hin). destruct (Hnotin Hin).
  - cbn [parse_args_loop startswith]. cbn.
    destruct (truthy watch_var); split; reflexivity.
Qed.

End ModeProperties.

Lemma repl_survives_interrupt_and_eof_witness :
  repl_loop (pipeline := Fixture.pipeline) [EndOfFile; Interrupt; EndOfFile] ∅
  = ([Prompt ">> "; Stdout "Error: EOF when reading a line";
      Prompt ">> "; Stdout LF;
      Prompt ">> "; Stdout "Error: EOF when reading a line";
      Prompt ">> "], AwaitingInput).
Proof.
  refine (repl_survives_interrupt_and_eof (pipeline := Fixture.pipeline)
            [EndOfFile; Interrupt; EndOfFile] [] ∅ _).
  repeat (constructor; [first [left; reflexivity | right; reflexivity]|]).
  constructor.
Defined.

Lemma file_mode_output_witness :
  stdout_of (fst (file_mode (pipeline := Fixture.pipeline) Fixture.files "print5.t" ∅)) = ["5"].
Proof.
  refine (proj1 (file_mode_output (pipeline := Fixture.pipeline)
                   Fixture.files "print5.t" "x = 5; print x" ∅ _)).
  reflexivity.
Defined.

Lemma empty_file_name_starts_session_witness :
  snd (main (pipeline := Fixture.pipeline) ["runner.py"; "print5.t"; ""] Fixture.files [])
  = AwaitingInput.
Proof.
  refine (proj1 (empty_file_name_starts_session (pipeline := Fixture.pipeline)
                   "runner.py" ["print5.t"] Fixture.files _)).
  intros Hin. apply elem_of_cons in Hin as [Heq | Hin]; [discriminate Heq|].
  exact (proj1 (elem_of_nil _) Hin).
Defined.

(** ** More on the rendering of values *)

(** X15.  The formatter does not escape the double quotes inside a
    string, so its output does not determine the value: a list holding
    the one string [s1", "s2] is rendered exactly like the list of the
    two strings [s1] and [s2]. *)
Theorem format_value_does_not_escape (s1 s2 : string) :
  VList [VStr (s1 +:+ DQ +:+ ", " +:+ DQ +:+ s2)] <> VList [VStr s1; VStr s2] /\
  WatchContext._format_value (VList [VStr (s1 +:+ DQ +:+ ", " +:+ DQ +:+ s2)])
  = WatchContext._format_value (VList [VStr s1; VStr s2]).
Proof.
  split; [discriminate|].
  cbn [WatchContext._format_value map str_join].
  f_equal. rewrite !append_assoc. reflexivity.
Qed.

